(** * Time-series modelling walkthrough: the orchestration code of
      [02_Time_Series_Modeling.ipynb]

    The notebook drives the hosted modelling service through the
    [datarobot] client package, which is installed from PyPI and is not part
    of this repository.  The code that the notebook itself executes is

    - the naming of the project after the clock (cell 4),
    - the construction of the known-in-advance feature settings (cell 5),
    - the construction of the datetime partitioning specification (cell 6),
    - the display of the head of the leaderboard (cell 8),
    - the selection of the best model of the leaderboard (cell 9),
    - the choice of the forecast point (cell 16),

    together with the outputs recorded in the notebook (the polling
    transcript of cell 7 and the first prediction rows of cell 17).

    Python dictionaries are finite maps with string keys, a failed lookup
    raises [KeyError]; exceptions are the left summand of a result type. *)

From Stdlib Require Import ZArith QArith List String Ascii Lia.
From stdpp Require Import base gmap strings list pretty.
Import ListNotations.

Local Open Scope string_scope.
Local Open Scope list_scope.

(** ** The fragment of Python the notebook uses *)

Module Py.

(** The exceptions the modelled code can raise. *)
Inductive exn : Type :=
| KeyError (key : string)
| TypeError
| ValueError.

(** [inl e]: the expression raised [e]; [inr v]: it evaluated to [v]. *)
Definition result (A : Type) : Type := (exn + A)%type.

Definition bind {A B : Type} (r : result A) (k : A -> result B) : result B :=
  match r with
  | inl e => inl e
  | inr a => k a
  end.

(** The values found in a score slot of the leaderboard: JSON [null] or a
    JSON number.  The code only tests such a number for truth and compares
    it with [<]; on finite numbers both agree with the order of the
    rationals, so a number is kept as a rational. *)
Inductive value : Type :=
| PyNone
| PyNum (q : Q).

Definition Qlt_bool (x y : Q) : bool :=
  (Qnum x * QDen y <? Qnum y * QDen x)%Z.

(** Truth value testing: [None] and a zero number are false. *)
Definition truthy (v : value) : bool :=
  match v with
  | PyNone => false
  | PyNum q => negb (Qeq_bool q 0)
  end.

(** [a < b]; ordering [None] against anything raises [TypeError]. *)
Definition lt (a b : value) : result bool :=
  match a, b with
  | PyNum x, PyNum y => inr (Qlt_bool x y)
  | _, _ => inl TypeError
  end.

(** [d[k]] on a dictionary. *)
Definition getitem {V : Type} (d : gmap string V) (k : string) : result V :=
  match d !! k with
  | Some v => inr v
  | None => inl (KeyError k)
  end.

End Py.

Notation "'let*' x ':=' r 'in' k" := (Py.bind r (fun x => k))
  (at level 10, x name, r at level 100, k at level 200).

(** The builtin [min(iterable, key=f)]: the first item becomes the current
    minimum; a later item replaces it only when its key is strictly below the
    key of the current minimum.  An empty iterable raises [ValueError]. *)
Section Min.
Context {A : Type}.
Variable key : A -> Py.result Py.value.

Fixpoint min_loop (l : list A) (best : A) (kbest : Py.value) : Py.result A :=
  match l with
  | [] => inr best
  | item :: rest =>
      let* k := key item in
      let* below := Py.lt k kbest in
      if below then min_loop rest item k else min_loop rest best kbest
  end.

Definition py_min (l : list A) : Py.result A :=
  match l with
  | [] => inl Py.ValueError
  | item :: rest => let* k := key item in min_loop rest item k
  end.
End Min.

(** ** Cell 9: choosing the best model *)

(** The attributes of a leaderboard entry that the notebook reads:
    [m.id] (in the permalink), [m.model_type], and [m.metrics], a dictionary
    from metric name to a dictionary from partition name to score. *)
Record Model : Type := {
  id : string;
  model_type : string;
  metrics : gmap string (gmap string Py.value)
}.

(** The project attribute read by the selection: [proj.metric]. *)
Record Project : Type := {
  project_id : string;
  metric : string
}.

(** [m.metrics[proj.metric]['crossValidation']] *)
Definition crossValidation (proj : Project) (m : Model) : Py.result Py.value :=
  let* scores := Py.getitem (metrics m) (metric proj) in
  Py.getitem scores "crossValidation".

(** [valid_models = [m for m in lb if m.metrics[proj.metric]['crossValidation']]] *)
Fixpoint valid_models (proj : Project) (lb : list Model) : Py.result (list Model) :=
  match lb with
  | [] => inr []
  | m :: rest =>
      let* score := crossValidation proj m in
      let* tail := valid_models proj rest in
      inr (if Py.truthy score then m :: tail else tail)
  end.

(** [best_model = min(valid_models, key=lambda m: m.metrics[proj.metric]['crossValidation'])] *)
Definition best_model (proj : Project) (lb : list Model) : Py.result Model :=
  let* valid := valid_models proj lb in
  py_min (crossValidation proj) valid.

(** A leaderboard entry whose only score is the cross-validation score of
    metric [mt]. *)
Definition scored (mt : string) (name : string) (cv : Py.value) : Model :=
  {| id := name; model_type := name;
     metrics := {[ mt := {[ "crossValidation" := cv ]} ]} |}.

Definition rmse_project : Project :=
  {| project_id := "5cf137ea5a3323233ecf4693"; metric := "RMSE" |}.

Definition mA : Model := scored "RMSE" "A" (Py.PyNum (1 # 2)).
Definition mB : Model := scored "RMSE" "B" Py.PyNone.
Definition mC : Model := scored "RMSE" "C" (Py.PyNum (3 # 10)).

Definition mZ : Model := scored "RMSE" "Z" (Py.PyNum 0).
Definition mZ' : Model := scored "RMSE" "Z2" (Py.PyNum 0).

(** An entry that has no score of the project's metric at all: its only
    metric is another one. *)
Definition mF : Model := scored "MASE" "F" Py.PyNone.

(** The entry has a cross-validation slot for the project's metric, filled
    or not: both dictionary lookups succeed. *)
Definition has_slot (proj : Project) (m : Model) : Prop :=
  exists v, crossValidation proj m = inr v.

(** The cross-validation score of the entry is present and equals [q]. *)
Definition cv_is (proj : Project) (m : Model) (q : Q) : Prop :=
  crossValidation proj m = inr (Py.PyNum q).

(** The test of the comprehension, as a boolean on entries. *)
Definition kept (proj : Project) (m : Model) : bool :=
  match crossValidation proj m with
  | inr v => Py.truthy v
  | inl _ => false
  end.

(** ** Cells 5 and 6: feature settings and partitioning specification *)

(** The two classes of the client package that the notebook instantiates,
    with the constructor arguments the notebook passes.  A record stands for
    a constructed object; the checks the constructors of the package make on
    their arguments are not part of the notebook and are not modelled. *)
Module dr.

Record FeatureSettings : Type := {
  feature_name : string;
  known_in_advance : bool
}.

Record DatetimePartitioningSpecification : Type := {
  datetime_partition_column : string;
  multiseries_id_columns : list string;
  use_time_series : bool;
  feature_settings : list FeatureSettings
}.

End dr.

Definition known_in_advance : list string :=
  ["Marketing"; "Near_Xmas"; "Near_BlackFriday"; "Holiday"; "DestinationEvent"].

(** [[dr.FeatureSettings(feat_name, known_in_advance=True) for feat_name in names]] *)
Fixpoint settings_for (names : list string) : list dr.FeatureSettings :=
  match names with
  | [] => []
  | feat_name :: rest =>
      {| dr.feature_name := feat_name; dr.known_in_advance := true |}
        :: settings_for rest
  end.

Definition feature_settings : list dr.FeatureSettings :=
  settings_for known_in_advance.

Definition time_partition : dr.DatetimePartitioningSpecification :=
  {| dr.datetime_partition_column := "Date";
     dr.multiseries_id_columns := ["Store"];
     dr.use_time_series := true;
     dr.feature_settings := feature_settings |}.

(** ** Cell 7: the recorded output of [proj.wait_for_autopilot()] *)

(** One line of the output, [In progress: i, queued: q (waited: ws)], as
    [(i, q, w)]; [w] is the elapsed time printed in whole seconds. *)
Definition progress_line : Type := (Z * Z * Z)%type.

Definition autopilot_output : list progress_line :=
  [
    (19, 0, 0); (19, 0, 0); (19, 0, 1); (19, 0, 2); (19, 0, 3); (19, 0, 5);
    (19, 0, 9); (19, 0, 15); (17, 0, 29); (17, 0, 49); (17, 0, 69); (12, 0, 90);
    (7, 0, 110); (4, 0, 131); (4, 0, 151); (3, 0, 172); (1, 0, 192); (8, 0, 212);
    (8, 0, 233); (8, 0, 253); (8, 0, 274); (4, 0, 294); (3, 0, 314); (2, 0, 335);
    (1, 0, 355); (0, 0, 375); (1, 0, 396); (1, 0, 416); (1, 0, 437); (1, 0, 457);
    (1, 0, 477); (1, 0, 498); (1, 0, 518); (1, 0, 538); (1, 0, 559); (1, 0, 579);
    (1, 0, 599); (1, 0, 619); (1, 0, 640); (1, 0, 660); (1, 0, 680); (1, 0, 701);
    (1, 0, 721); (1, 0, 742); (1, 0, 762); (1, 0, 782); (1, 0, 802); (0, 0, 823)
  ]%Z.

Definition waited (l : progress_line) : Z := snd l.

(** The differences between the elapsed times of consecutive lines. *)
Fixpoint gaps (ws : list Z) : list Z :=
  match ws with
  | a :: (b :: _) as rest => (b - a)%Z :: gaps rest
  | _ => []
  end.

(** ** Cell 17: the recorded first rows of the predictions *)

(** A printed instant [YYYY-MM-DDT00:00:00.000000Z]; every instant of the
    recorded rows is at midnight UTC. *)
Record date : Type := { year : Z; month : Z; day : Z }.

(** The number of days from 1970-01-01 to the given civil date of the
    proleptic Gregorian calendar. *)
Definition days_from_civil (d : date) : Z :=
  let y := (if month d <=? 2 then year d - 1 else year d)%Z in
  let era := (y / 400)%Z in
  let yoe := (y - era * 400)%Z in
  let mp := ((month d + 9) mod 12)%Z in
  let doy := ((153 * mp + 2) / 5 + day d - 1)%Z in
  let doe := (yoe * 365 + yoe / 4 - yoe / 100 + doy)%Z in
  (era * 146097 + doe - 719468)%Z.

(** The columns of the predictions frame; the predicted value is printed
    with six decimals and kept as a count of millionths. *)
Record PredictionRow : Type := {
  forecast_distance : Z;
  forecast_point : date;
  prediction : Z;
  row_id : Z;
  series_id : string;
  timestamp : date
}.

Definition jun (d : Z) : date := {| year := 2014; month := 6; day := d |}.

Definition preds_head : list PredictionRow :=
  [ {| forecast_distance := 1; forecast_point := jun 14;
       prediction := 149958276039; row_id := 714;
       series_id := "Louisville"; timestamp := jun 15 |};
    {| forecast_distance := 2; forecast_point := jun 14;
       prediction := 131777576752; row_id := 715;
       series_id := "Louisville"; timestamp := jun 16 |};
    {| forecast_distance := 3; forecast_point := jun 14;
       prediction := 136007089278; row_id := 716;
       series_id := "Louisville"; timestamp := jun 17 |};
    {| forecast_distance := 4; forecast_point := jun 14;
       prediction := 135969901475; row_id := 717;
       series_id := "Louisville"; timestamp := jun 18 |};
    {| forecast_distance := 5; forecast_point := jun 14;
       prediction := 137532712686; row_id := 718;
       series_id := "Louisville"; timestamp := jun 19 |} ]%Z.

(** The row's instant lies [forecast_distance] one-day periods after its
    forecast point. *)
Definition on_horizon (r : PredictionRow) : Prop :=
  (1 <= forecast_distance r)%Z /\
  days_from_civil (timestamp r)
  = (days_from_civil (forecast_point r) + forecast_distance r)%Z.

(** ** Cell 4: the name of the project *)

(** The reading of the clock, [datetime.datetime.now()]. *)
Record datetime : Type := {
  date_part : date;
  hour : Z;
  minute : Z;
  second : Z;
  microsecond : Z
}.

Fixpoint zeros (k : nat) : string :=
  match k with
  | O => ""
  | S k' => String "0" (zeros k')
  end.

(** A number as a zero-padded decimal of at least [width] characters; a
    number with more digits is printed in full. *)
Definition zero_padded (width : nat) (n : Z) : string :=
  let s := pretty n in
  (zeros (width - String.length s) ++ s)%string.

(** [now = datetime.datetime.now().strftime('%Y-%m-%dT%H:%M')] *)
Definition now (clock : datetime) : string :=
  (zero_padded 4 (year (date_part clock)) ++ "-" ++
   zero_padded 2 (month (date_part clock)) ++ "-" ++
   zero_padded 2 (day (date_part clock)) ++ "T" ++
   zero_padded 2 (hour clock) ++ ":" ++
   zero_padded 2 (minute clock))%string.

(** [project_name = 'DR_Demo_Sales_Multiseries_{}'.format(now)] *)
Definition project_name (clock : datetime) : string :=
  ("DR_Demo_Sales_Multiseries_" ++ now clock)%string.

(** The ranges of the fields of a clock reading that the name depends on;
    the year has four digits. *)
Definition clock_ok (clock : datetime) : Prop :=
  (1000 <= year (date_part clock) <= 9999)%Z /\
  (1 <= month (date_part clock) <= 12)%Z /\
  (1 <= day (date_part clock) <= 31)%Z /\
  (0 <= hour clock <= 23)%Z /\
  (0 <= minute clock <= 59)%Z.

(** Lexicographic combination of comparisons. *)
Definition lex (c d : comparison) : comparison :=
  match c with
  | Eq => d
  | _ => c
  end.

(** The order of two clock readings up to the minute. *)
Definition minute_compare (a b : datetime) : comparison :=
  lex (year (date_part a) ?= year (date_part b))%Z
   (lex (month (date_part a) ?= month (date_part b))%Z
     (lex (day (date_part a) ?= day (date_part b))%Z
       (lex (hour a ?= hour b)%Z (minute a ?= minute b)%Z))).

(** The numbers from [lo] on, [k] of them. *)
Fixpoint upto (k : nat) (lo : Z) : list Z :=
  match k with
  | O => []
  | S k' => lo :: upto k' (lo + 1)%Z
  end.

(** The character of a decimal digit. *)
Definition digit (d : Z) : ascii := ascii_of_N (48 + Z.to_N d).

(** Two readings of the clock in the same minute, and one a minute later. *)
Definition clock_a : datetime :=
  {| date_part := {| year := 2019; month := 5; day := 31 |};
     hour := 14; minute := 7; second := 3; microsecond := 123 |}.

Definition clock_b : datetime :=
  {| date_part := {| year := 2019; month := 5; day := 31 |};
     hour := 14; minute := 7; second := 58; microsecond := 0 |}.

Definition clock_c : datetime :=
  {| date_part := {| year := 2019; month := 5; day := 31 |};
     hour := 14; minute := 8; second := 0; microsecond := 0 |}.

(** ** Cell 8: the head of the leaderboard *)

(** [l[:n]] for a non-negative [n]: the first [n] items, all of them when
    the list is shorter. *)
Definition slice_to {A : Type} (n : nat) (l : list A) : list A := firstn n l.

(** ** Cell 16: the forecast point *)

(** [last_train_date = pd.to_datetime(d['Date']).max()] on the column of
    parsed instants: the greatest instant, missing ones ([NaT], here [None])
    being skipped; [NaT] when nothing is left. *)
Fixpoint last_train_date (dates : list (option Z)) : option Z :=
  match dates with
  | [] => None
  | None :: rest => last_train_date rest
  | Some t :: rest =>
      match last_train_date rest with
      | None => Some t
      | Some u => Some (Z.max t u)
      end
  end.

(** * Properties *)

(** ** Comparison and truth of numbers *)

Lemma Qlt_bool_iff (x y : Q) : Py.Qlt_bool x y = true <-> (x < y)%Q.
Proof. unfold Py.Qlt_bool, Qlt. apply Z.ltb_lt. Qed.

Lemma Qlt_bool_false_iff (x y : Q) : Py.Qlt_bool x y = false <-> (y <= x)%Q.
Proof. unfold Py.Qlt_bool, Qle. rewrite Z.ltb_ge. reflexivity. Qed.

Lemma truthy_num (q : Q) : Py.truthy (Py.PyNum q) = true <-> ~ (q == 0)%Q.
Proof.
  simpl. rewrite negb_true_iff. split.
  - intros Hb Heq. apply Qeq_bool_iff in Heq. congruence.
  - intros Hne. destruct (Qeq_bool q 0) eqn:E; [|reflexivity].
    exfalso. apply Hne. now apply Qeq_bool_iff.
Qed.

Lemma truthy_inv (v : Py.value) :
  Py.truthy v = true -> exists q, v = Py.PyNum q /\ ~ (q == 0)%Q.
Proof.
  destruct v as [|q]; [discriminate|].
  intros H. exists q. split; [reflexivity|]. now apply truthy_num.
Qed.

(** ** The builtin [min] with a key *)

Section MinFacts.
Context {A : Type}.
Variable key : A -> Py.result Py.value.

(** The key of [x] is the number [q]. *)
Let key_is (x : A) (q : Q) : Prop := key x = inr (Py.PyNum q).

(** Every item has a number as its key, and that number satisfies [P]. *)
Let keys (P : Q -> Prop) (l : list A) : Prop :=
  Forall (fun x => exists q, key_is x q /\ P q) l.

(** No later item is strictly below the current minimum: it is kept. *)
Lemma min_loop_keep (l : list A) (best : A) (qb : Q) :
  keys (fun q => (qb <= q)%Q) l ->
  min_loop key l best (Py.PyNum qb) = inr best.
Proof.
  induction 1 as [|x l (q & Hk & Hq) _ IH]; [reflexivity|].
  simpl. rewrite Hk. simpl.
  apply Qlt_bool_false_iff in Hq. rewrite Hq. exact IH.
Qed.

(** The first item strictly below everything before it and not above
    anything after it is the one the loop ends with. *)
Lemma min_loop_reach (l1 l2 : list A) (m : A) (q : Q) :
  key_is m q ->
  keys (fun qx => (q < qx)%Q) l1 ->
  keys (fun qx => (q <= qx)%Q) l2 ->
  forall (best : A) (qb : Q), (q < qb)%Q ->
  min_loop key (l1 ++ m :: l2) best (Py.PyNum qb) = inr m.
Proof.
  intros Hm H1 H2. induction H1 as [|x l1 (qx & Hk & Hq) _ IH];
    intros best qb Hqb; simpl.
  - rewrite Hm. simpl. apply Qlt_bool_iff in Hqb. rewrite Hqb.
    now apply min_loop_keep.
  - rewrite Hk. simpl. destruct (Py.Qlt_bool qx qb); now apply IH.
Qed.

(** [min] is stable: among the items with the least key it returns the
    earliest. *)
Lemma py_min_earliest (l1 l2 : list A) (m : A) (q : Q) :
  key_is m q ->
  keys (fun qx => (q < qx)%Q) l1 ->
  keys (fun qx => (q <= qx)%Q) l2 ->
  py_min key (l1 ++ m :: l2) = inr m.
Proof.
  intros Hm H1 H2. destruct H1 as [|x l1 (qx & Hk & Hq) H1]; simpl.
  - rewrite Hm. simpl. now apply min_loop_keep.
  - rewrite Hk. simpl. exact (min_loop_reach l1 l2 m q Hm H1 H2 x qx Hq).
Qed.

(** Such an earliest least item exists in every non-empty list of items
    with number keys, so [min] returns on all of them. *)
Lemma earliest_least_exists (l : list A) :
  l <> [] -> keys (fun _ => True) l ->
  exists (l1 : list A) (m : A) (l2 : list A) (q : Q),
    l = l1 ++ m :: l2 /\ key_is m q /\
    keys (fun qx => (q < qx)%Q) l1 /\ keys (fun qx => (q <= qx)%Q) l2.
Proof.
  induction l as [|x l IH]; [congruence|]. intros _ Hall.
  inversion Hall as [|? ? (qx & Hk & _) Hrest]; subst.
  destruct l as [|y l'].
  - exists [], x, [], qx. repeat split; try constructor. exact Hk.
  - destruct IH as (l1 & m & l2 & q & Heq & Hm & H1 & H2);
      [congruence|exact Hrest|].
    destruct (Qlt_le_dec q qx) as [Hlt|Hle].
    + exists (x :: l1), m, l2, q. rewrite Heq.
      repeat split; try assumption.
      constructor; [exists qx; now split|exact H1].
    + exists [], x, (l1 ++ m :: l2), qx. rewrite Heq.
      repeat split; try assumption; [constructor|].
      apply Forall_app. split.
      * eapply Forall_impl; [exact H1|]. intros z (qz & Hz & Hlt).
        exists qz. split; [exact Hz|].
        apply Qle_trans with q; [exact Hle|now apply Qlt_le_weak].
      * constructor.
        -- exists q. now split.
        -- eapply Forall_impl; [exact H2|]. intros z (qz & Hz & Hle').
           exists qz. split; [exact Hz|]. now apply Qle_trans with q.
Qed.

End MinFacts.

(** ** Cell 9: the comprehension *)

(** When every entry has the slot, the comprehension is the order-preserving
    filter by the truth of the score. *)
Lemma valid_models_filter (proj : Project) (lb : list Model) :
  Forall (has_slot proj) lb ->
  valid_models proj lb = inr (List.filter (kept proj) lb).
Proof.
  induction 1 as [|m lb [v Hv] _ IH]; [reflexivity|].
  simpl. unfold kept. rewrite Hv, IH. reflexivity.
Qed.

(** The comprehension evaluates only when every entry has the slot. *)
Lemma valid_models_slots (proj : Project) (lb vm : list Model) :
  valid_models proj lb = inr vm -> Forall (has_slot proj) lb.
Proof.
  revert vm. induction lb as [|m lb IH]; intros vm H; [constructor|].
  simpl in H. destruct (crossValidation proj m) as [e|v] eqn:Hv;
    [discriminate|]. simpl in H.
  destruct (valid_models proj lb) as [e|tl] eqn:Htl; [discriminate|].
  constructor; [now exists v|now apply (IH tl)].
Qed.

(** An entry that passes the test has a present, non-zero score. *)
Lemma kept_cv (proj : Project) (m : Model) :
  kept proj m = true -> exists q, cv_is proj m q /\ ~ (q == 0)%Q.
Proof.
  unfold kept, cv_is. destruct (crossValidation proj m) as [e|v];
    [discriminate|].
  intros H. destruct (truthy_inv v H) as (q & -> & Hq). now exists q.
Qed.

(** An entry whose score is absent, or present and zero, fails the test. *)
Lemma kept_none (proj : Project) (m : Model) :
  crossValidation proj m = inr Py.PyNone -> kept proj m = false.
Proof. unfold kept. now intros ->. Qed.

Lemma kept_zero (proj : Project) (m : Model) (q : Q) :
  cv_is proj m q -> (q == 0)%Q -> kept proj m = false.
Proof.
  unfold kept, cv_is. intros -> Hq. simpl.
  apply Qeq_bool_iff in Hq. now rewrite Hq.
Qed.

Lemma filter_kept_keys (proj : Project) (lb : list Model) :
  Forall (fun m => exists q, cv_is proj m q /\ True)
         (List.filter (kept proj) lb).
Proof.
  apply List.Forall_forall. intros m Hin.
  apply List.filter_In in Hin. destruct Hin as [_ Hk].
  destruct (kept_cv proj m Hk) as (q & Hq & _). now exists q.
Qed.

(** ** Cell 9: the selection *)

(** Over entries that all have the slot, the selection returns the earliest
    entry of least score among the entries that pass the test. *)
Lemma best_model_earliest_least
    (proj : Project) (lb l1 l2 : list Model) (m : Model) (q : Q) :
  Forall (has_slot proj) lb ->
  List.filter (kept proj) lb = l1 ++ m :: l2 ->
  cv_is proj m q ->
  Forall (fun x => exists qx, cv_is proj x qx /\ (q < qx)%Q) l1 ->
  Forall (fun x => exists qx, cv_is proj x qx /\ (q <= qx)%Q) l2 ->
  best_model proj lb = inr m.
Proof.
  intros Hslots Hsplit Hm H1 H2. unfold best_model.
  rewrite (valid_models_filter proj lb Hslots). simpl. rewrite Hsplit.
  now apply py_min_earliest with q.
Qed.

(** The selection returns as soon as one entry passes the test, and what it
    returns is an entry of the leaderboard with a present, non-zero score
    that no entry passing the test undercuts. *)
Lemma best_model_returns (proj : Project) (lb : list Model) :
  Forall (has_slot proj) lb ->
  Exists (fun m => kept proj m = true) lb ->
  exists m q,
    best_model proj lb = inr m /\ In m lb /\ cv_is proj m q /\
    ~ (q == 0)%Q /\
    forall x qx, In x lb -> cv_is proj x qx -> ~ (qx == 0)%Q -> (q <= qx)%Q.
Proof.
  intros Hslots Hex.
  assert (Hne : List.filter (kept proj) lb <> []).
  { apply List.Exists_exists in Hex. destruct Hex as (x & Hin & Hk).
    intros Hnil. assert (Hx : In x (List.filter (kept proj) lb))
      by (apply List.filter_In; now split).
    rewrite Hnil in Hx. exact Hx. }
  destruct (earliest_least_exists (crossValidation proj) _ Hne
              (filter_kept_keys proj lb))
    as (l1 & m & l2 & q & Hsplit & Hm & H1 & H2).
  assert (Hin : In m (List.filter (kept proj) lb)).
  { rewrite Hsplit. apply List.in_or_app. right. now left. }
  apply List.filter_In in Hin. destruct Hin as [Hin Hk].
  destruct (kept_cv proj m Hk) as (q' & Hq' & Hnz).
  assert (q' = q) by (unfold cv_is in *; congruence). subst q'.
  exists m, q. repeat split; try assumption.
  - now apply (best_model_earliest_least proj lb l1 l2 m q).
  - intros x qx Hx Hqx Hxnz.
    assert (Hkx : kept proj x = true).
    { unfold kept. unfold cv_is in Hqx. rewrite Hqx. now apply truthy_num. }
    assert (Hxf : In x (l1 ++ m :: l2)).
    { rewrite <- Hsplit. apply List.filter_In. now split. }
    apply List.in_app_or in Hxf. destruct Hxf as [Hx1|[->|Hx2]].
    + apply (proj1 (List.Forall_forall _ _) H1) in Hx1.
      destruct Hx1 as (qx' & Hqx' & Hlt).
      assert (qx' = qx) by (unfold cv_is in *; congruence). subst qx'.
      now apply Qlt_le_weak.
    + assert (qx = q) by (unfold cv_is in *; congruence). subst qx.
      apply Qle_refl.
    + apply (proj1 (List.Forall_forall _ _) H2) in Hx2.
      destruct Hx2 as (qx' & Hqx' & Hle).
      assert (qx' = qx) by (unfold cv_is in *; congruence). now subst qx'.
Qed.

(** Over entries that all have the slot, the selection raises [ValueError]
    exactly when no entry passes the test. *)
Lemma best_model_ValueError_iff (proj : Project) (lb : list Model) :
  Forall (has_slot proj) lb ->
  best_model proj lb = inl Py.ValueError <->
  Forall (fun m => kept proj m = false) lb.
Proof.
  intros Hslots. split.
  - intros Herr. apply List.Forall_forall. intros x Hx.
    destruct (kept proj x) eqn:Hk; [|reflexivity].
    destruct (best_model_returns proj lb Hslots) as (m & q & Hm & _).
    { apply List.Exists_exists. now exists x. }
    congruence.
  - intros Hnone. unfold best_model.
    rewrite (valid_models_filter proj lb Hslots). simpl.
    replace (List.filter (kept proj) lb) with (@nil Model); [reflexivity|].
    symmetry. induction Hnone as [|x l Hx _ IH]; [reflexivity|].
    simpl. rewrite Hx. apply IH. now inversion Hslots.
Qed.

(** The leaderboard of the specification's example: the entry without a
    score is dropped and the lower of the two scores wins. *)
Example best_of_A_B_C : best_model rmse_project [mA; mB; mC] = inr mC.
Proof. vm_compute. reflexivity. Qed.

(** An entry that lacks the metric altogether makes the selection raise
    [KeyError] rather than skip the entry. *)
Example best_model_missing_metric :
  best_model rmse_project [mA; scored "MASE" "D" (Py.PyNum (1 # 4))]
  = inl (Py.KeyError "RMSE").
Proof. vm_compute. reflexivity. Qed.

(** The only exceptions a score lookup raises are the two [KeyError]s. *)
Lemma crossValidation_error (proj : Project) (m : Model) (e : Py.exn) :
  crossValidation proj m = inl e ->
  e = Py.KeyError (metric proj) \/ e = Py.KeyError "crossValidation".
Proof.
  unfold crossValidation, Py.getitem.
  destruct (metrics m !! metric proj) as [scores|]; simpl.
  - destruct (scores !! "crossValidation"); [discriminate|].
    intros [= <-]. now right.
  - intros [= <-]. now left.
Qed.

(** An exception of the comprehension is the exception of one lookup. *)
Lemma valid_models_error (proj : Project) (lb : list Model) (e : Py.exn) :
  valid_models proj lb = inl e ->
  exists m, In m lb /\ crossValidation proj m = inl e.
Proof.
  induction lb as [|m lb IH]; [discriminate|]. simpl.
  destruct (crossValidation proj m) as [e'|v] eqn:Hv; simpl.
  - intros [= <-]. exists m. split; [now left|exact Hv].
  - destruct (valid_models proj lb) as [e'|tl]; [|discriminate]. simpl.
    intros [= <-]. destruct IH as (x & Hx & He); [reflexivity|].
    exists x. split; [now right|exact He].
Qed.

(** C1.  The notebook announces the choice of the model with the lowest
    backtesting error, and the claim has every present score, a score of 0
    included, take part in the comparison.  The test of the comprehension is
    the truth value of the score, which is false for 0: on the leaderboard
    [A: 0.5, Z: 0] the entry [Z], whose score is present and the lowest, is
    dropped and [A] is returned. *)
Theorem best_model_skips_zero_score :
  cv_is rmse_project mA (1 # 2) /\
  cv_is rmse_project mZ 0 /\
  valid_models rmse_project [mA; mZ] = inr [mA] /\
  best_model rmse_project [mA; mZ] = inr mA.
Proof. repeat split; vm_compute; reflexivity. Qed.

(** C2.  On a leaderboard where no entry has a present cross-validation
    score for the project's metric (the slot holds [None], or the entry has
    no such slot; the empty leaderboard included), the selection fails: it
    raises an exception and returns no model.  The exception is the
    [ValueError] of [min] on the empty list of valid models exactly when
    every entry has the slot; otherwise it is the [KeyError] of the first
    failed lookup. *)
Theorem best_model_no_eligible (proj : Project) (lb : list Model) :
  Forall (fun m => forall q, ~ cv_is proj m q) lb ->
  (exists e, best_model proj lb = inl e /\
             (e = Py.ValueError <-> Forall (has_slot proj) lb)) /\
  forall m, best_model proj lb <> inr m.
Proof.
  intros Hnone.
  assert (Hfail : exists e, best_model proj lb = inl e /\
                    (e = Py.ValueError <-> Forall (has_slot proj) lb)).
  { destruct (valid_models proj lb) as [e|vm] eqn:Hvm.
    - exists e. split; [unfold best_model; now rewrite Hvm|]. split.
      + intros ->. destruct (valid_models_error proj lb _ Hvm) as (m & _ & Hm).
        destruct (crossValidation_error proj m _ Hm); discriminate.
      + intros Hs. rewrite (valid_models_filter proj lb Hs) in Hvm.
        discriminate.
    - pose proof (valid_models_slots proj lb vm Hvm) as Hs.
      exists Py.ValueError. split; [|now split].
      apply best_model_ValueError_iff; [exact Hs|].
      apply List.Forall_forall. intros m Hin.
      destruct (proj1 (List.Forall_forall _ _) Hs m Hin) as [v Hv].
      destruct v as [|q].
      + now apply kept_none.
      + exfalso. exact (proj1 (List.Forall_forall _ _) Hnone m Hin q Hv). }
  split; [exact Hfail|].
  destruct Hfail as (e & He & _). intros m Hm. congruence.
Qed.

Lemma best_model_no_eligible_witness :
  (exists e, best_model rmse_project [mB; mF] = inl e /\
             (e = Py.ValueError <-> Forall (has_slot rmse_project) [mB; mF])) /\
  forall m, best_model rmse_project [mB; mF] <> inr m.
Proof.
  apply (best_model_no_eligible rmse_project [mB; mF]).
  constructor; [|constructor; [|constructor]];
    intros q H; vm_compute in H; discriminate H.
Defined.

(** The three shapes of a leaderboard without a present score: a slot
    holding [None], no entry at all, and an entry without the slot. *)
Example best_model_only_None :
  best_model rmse_project [mB] = inl Py.ValueError.
Proof. vm_compute. reflexivity. Qed.

Example best_model_empty (proj : Project) :
  best_model proj [] = inl Py.ValueError.
Proof. reflexivity. Qed.

Example best_model_no_slot :
  best_model rmse_project [mB; mF] = inl (Py.KeyError "RMSE").
Proof. vm_compute. reflexivity. Qed.

(** C9.  The claim has the earliest of the entries that share the least
    present score returned.  [min] is stable over the filtered list, but
    the filter drops the entries whose score is 0: on the leaderboard
    [Z: 0, Z2: 0, A: 0.5] the two entries that share the least present
    score are both dropped and [A] is returned instead of [Z]. *)
Theorem best_model_zero_tie :
  cv_is rmse_project mZ 0 /\
  cv_is rmse_project mZ' 0 /\
  cv_is rmse_project mA (1 # 2) /\
  valid_models rmse_project [mZ; mZ'; mA] = inr [mA] /\
  best_model rmse_project [mZ; mZ'; mA] = inr mA.
Proof. repeat split; vm_compute; reflexivity. Qed.

(** ** Cells 5 and 6 *)

(** The comprehension yields one setting per name, in the order of the
    names, each marked known in advance. *)
Lemma settings_for_names (names : list string) :
  List.map dr.feature_name (settings_for names) = names.
Proof. induction names as [|n names IH]; simpl; [|rewrite IH]; reflexivity. Qed.

Lemma settings_for_length (names : list string) :
  length (settings_for names) = length names.
Proof. induction names as [|n names IH]; simpl; [|rewrite IH]; reflexivity. Qed.

Lemma settings_for_known (names : list string) :
  Forall (fun fs => dr.known_in_advance fs = true) (settings_for names).
Proof. induction names as [|n names IH]; simpl; constructor; auto. Qed.

(** C10.  For the five names of the notebook, [feature_settings] holds
    exactly one setting per name, in the order of the names, each with
    [known_in_advance] true; [time_partition] carries this list together
    with the datetime column [Date], the multiseries identifier columns
    [[Store]] and [use_time_series] true. *)
Theorem time_partition_settings :
  length feature_settings = 5 /\
  List.map dr.feature_name feature_settings
  = ["Marketing"; "Near_Xmas"; "Near_BlackFriday"; "Holiday";
     "DestinationEvent"] /\
  Forall (fun fs => dr.known_in_advance fs = true) feature_settings /\
  dr.datetime_partition_column time_partition = "Date" /\
  dr.multiseries_id_columns time_partition = ["Store"] /\
  dr.use_time_series time_partition = true /\
  dr.feature_settings time_partition = feature_settings.
Proof.
  unfold feature_settings.
  split; [apply (settings_for_length known_in_advance)|].
  split; [apply (settings_for_names known_in_advance)|].
  split; [apply settings_for_known|].
  repeat split.
Qed.

(** ** The recorded outputs *)

(** In the recorded run the elapsed time never decreases from one line to
    the next, no two consecutive lines are more than 21 seconds apart, and
    from the ninth line on they are 20 or 21 seconds apart. *)
Lemma autopilot_output_gaps :
  Forall (fun g => (0 <= g <= 21)%Z) (gaps (List.map waited autopilot_output)) /\
  Forall (fun g => (20 <= g <= 21)%Z)
         (gaps (List.map waited (List.skipn 8 autopilot_output))).
Proof. split; vm_compute; repeat constructor; discriminate. Qed.

(** The printed gaps are not themselves monotone: a gap of 21 seconds is
    followed by one of 20 (elapsed times are printed in whole seconds). *)
Lemma autopilot_output_gap_drop :
  exists i, gaps (List.map waited autopilot_output) !! i = Some 21%Z /\
            gaps (List.map waited autopilot_output) !! (S i) = Some 20%Z.
Proof. exists 10%nat. split; vm_compute; reflexivity. Qed.

(** The last recorded line reports no job in progress and none queued. *)
Lemma autopilot_output_last :
  List.last autopilot_output (0, 0, 0)%Z = (0, 0, 823)%Z /\
  length autopilot_output = 48%nat.
Proof. split; reflexivity. Qed.

(** Each of the five recorded prediction rows lies its forecast distance,
    counted in days, after the forecast point 2014-06-14. *)
Lemma preds_head_on_horizon : Forall on_horizon preds_head.
Proof. repeat constructor; vm_compute; congruence. Qed.

Lemma preds_head_columns :
  List.map forecast_distance preds_head = [1; 2; 3; 4; 5]%Z /\
  List.map timestamp preds_head = [jun 15; jun 16; jun 17; jun 18; jun 19] /\
  Forall (fun r => forecast_point r = jun 14) preds_head.
Proof. repeat split; repeat constructor. Qed.

(** ** Cell 9: outcomes of the selection on arbitrary leaderboards *)

(** The comprehension stops at the first entry whose lookup raises. *)
Lemma valid_models_first_missing
    (proj : Project) (l1 l2 : list Model) (m : Model) (e : Py.exn) :
  Forall (has_slot proj) l1 ->
  crossValidation proj m = inl e ->
  valid_models proj (l1 ++ m :: l2) = inl e.
Proof.
  intros H1 Hm. induction H1 as [|x l1 [v Hv] _ IH]; simpl.
  - now rewrite Hm.
  - now rewrite Hv, IH.
Qed.

(** What the selection returns is the earliest least entry of the filtered
    leaderboard. *)
Lemma best_model_inv (proj : Project) (lb : list Model) (m : Model) :
  Forall (has_slot proj) lb ->
  best_model proj lb = inr m ->
  exists (l1 l2 : list Model) (q : Q),
    List.filter (kept proj) lb = l1 ++ m :: l2 /\ cv_is proj m q /\
    Forall (fun x => exists qx, cv_is proj x qx /\ (q < qx)%Q) l1 /\
    Forall (fun x => exists qx, cv_is proj x qx /\ (q <= qx)%Q) l2.
Proof.
  intros Hslots Hbest.
  destruct (List.filter (kept proj) lb) as [|x f] eqn:Hf.
  - unfold best_model in Hbest.
    rewrite (valid_models_filter proj lb Hslots), Hf in Hbest. discriminate.
  - destruct (earliest_least_exists (crossValidation proj)
                (List.filter (kept proj) lb)) as (l1 & m' & l2 & q & Hsplit & Hm & H1 & H2).
    + rewrite Hf. discriminate.
    + apply filter_kept_keys.
    + rewrite <- Hf.
      assert (Hb' : best_model proj lb = inr m')
        by now apply (best_model_earliest_least proj lb l1 l2 m' q).
      assert (m' = m) by congruence. subst m'.
      now exists l1, l2, q.
Qed.

Lemma filter_kept_bounded
    (proj : Project) (P : Q -> Prop) (l : list Model) :
  Forall (fun x => kept proj x = false \/
                   exists qx, cv_is proj x qx /\ P qx) l ->
  Forall (fun x => exists qx, cv_is proj x qx /\ P qx)
         (List.filter (kept proj) l).
Proof.
  induction 1 as [|x l Hx _ IH]; simpl; [constructor|].
  destruct (kept proj x) eqn:Hk; [|exact IH].
  constructor; [|exact IH]. destruct Hx as [Hx|Hx]; [congruence|exact Hx].
Qed.

Lemma cv_is_kept (proj : Project) (m : Model) (q : Q) :
  cv_is proj m q -> ~ (q == 0)%Q -> kept proj m = true.
Proof. unfold cv_is, kept. intros -> Hq. now apply truthy_num. Qed.

Lemma cv_is_fun (proj : Project) (m : Model) (q q' : Q) :
  cv_is proj m q -> cv_is proj m q' -> q = q'.
Proof. unfold cv_is. congruence. Qed.

(** Two ways of cutting one list around a distinguished element agree, or
    one distinguished element lies before the other. *)
Lemma cut_cases {A : Type} (l1 l2 a r : list A) (m m' : A) :
  l1 ++ m :: l2 = a ++ m' :: r ->
  (l1 = a /\ m = m') \/ In m' l1 \/ In m a.
Proof.
  revert a. induction l1 as [|x l1 IH]; intros [|y a] H; simpl in H.
  - injection H as -> _. now left.
  - injection H as -> _. right. right. now left.
  - injection H as -> _. right. left. now left.
  - injection H as -> H. destruct (IH a H) as [[-> ->]|[Hin|Hin]].
    + now left.
    + right. left. now right.
    + right. right. now right.
Qed.

(** X1.  The comprehension evaluates exactly when every entry has a
    cross-validation slot for the project's metric, and then yields the
    entries with a true score, in leaderboard order. *)
Theorem valid_models_exactly (proj : Project) (lb vm : list Model) :
  valid_models proj lb = inr vm <->
  Forall (has_slot proj) lb /\ vm = List.filter (kept proj) lb.
Proof.
  split.
  - intros H. pose proof (valid_models_slots proj lb vm H) as Hs.
    split; [exact Hs|]. rewrite (valid_models_filter proj lb Hs) in H.
    congruence.
  - intros [Hs ->]. now apply valid_models_filter.
Qed.

(** X2.  On a leaderboard whose entries all have the slot and where some
    score is present and non-zero, the selection returns; the entry it returns
    belongs to the leaderboard, its score is present and non-zero, and no
    present non-zero score of the leaderboard is lower. *)
Theorem best_model_least_score (proj : Project) (lb : list Model) :
  Forall (has_slot proj) lb ->
  (exists x qx, In x lb /\ cv_is proj x qx /\ ~ (qx == 0)%Q) ->
  exists m q,
    best_model proj lb = inr m /\ In m lb /\ cv_is proj m q /\
    ~ (q == 0)%Q /\
    forall x qx, In x lb -> cv_is proj x qx -> ~ (qx == 0)%Q -> (q <= qx)%Q.
Proof.
  intros Hslots (x & qx & Hin & Hq & Hnz).
  apply best_model_returns; [exact Hslots|].
  apply List.Exists_exists. exists x. split; [exact Hin|].
  now apply cv_is_kept with qx.
Qed.

Lemma best_model_least_score_witness :
  exists m q,
    best_model rmse_project [mA; mB; mC] = inr m /\ In m [mA; mB; mC] /\
    cv_is rmse_project m q /\ ~ (q == 0)%Q /\
    forall x qx, In x [mA; mB; mC] -> cv_is rmse_project x qx ->
                 ~ (qx == 0)%Q -> (q <= qx)%Q.
Proof.
  apply (best_model_least_score rmse_project [mA; mB; mC]).
  - repeat constructor; eexists; vm_compute; reflexivity.
  - exists mA, (1 # 2). split; [now left|]. split; [vm_compute; reflexivity|].
    intros H. discriminate H.
Defined.

(** X3.  An entry of the leaderboard with a present non-zero score is the
    one selected when every entry before it is either dropped by the filter
    or has a strictly higher score, and every entry after it is either
    dropped or has a score at least as high: of equal best scores the first
    wins. *)
Theorem best_model_first_of_equals
    (proj : Project) (l1 l2 : list Model) (m : Model) (q : Q) :
  Forall (has_slot proj) (l1 ++ m :: l2) ->
  cv_is proj m q -> ~ (q == 0)%Q ->
  Forall (fun x => kept proj x = false \/
                   exists qx, cv_is proj x qx /\ (q < qx)%Q) l1 ->
  Forall (fun x => kept proj x = false \/
                   exists qx, cv_is proj x qx /\ (q <= qx)%Q) l2 ->
  best_model proj (l1 ++ m :: l2) = inr m.
Proof.
  intros Hslots Hm Hnz H1 H2.
  apply (best_model_earliest_least proj _ (List.filter (kept proj) l1)
           (List.filter (kept proj) l2) m q); try assumption.
  - rewrite List.filter_app. simpl. now rewrite (cv_is_kept proj m q).
  - now apply filter_kept_bounded.
  - now apply filter_kept_bounded.
Qed.

Lemma best_model_first_of_equals_witness :
  best_model rmse_project ([mA; mB] ++ mC :: [mZ; mC; mA]) = inr mC.
Proof.
  apply (best_model_first_of_equals rmse_project [mA; mB] [mZ; mC; mA] mC (3 # 10)).
  - repeat constructor; eexists; vm_compute; reflexivity.
  - vm_compute; reflexivity.
  - intros H; discriminate H.
  - constructor; [|constructor; [|constructor]].
    + right. exists (1 # 2). split; vm_compute; reflexivity.
    + left. vm_compute; reflexivity.
  - constructor; [|constructor; [|constructor; [|constructor]]].
    + left. vm_compute; reflexivity.
    + right. exists (3 # 10). split; [vm_compute; reflexivity|].
      intros H; discriminate H.
    + right. exists (1 # 2). split; [vm_compute; reflexivity|].
      intros H; discriminate H.
Defined.

(** X4.  Whatever the leaderboard, the selection raises nothing but the
    [ValueError] of [min] and the [KeyError] of a failed lookup of the metric
    or of ['crossValidation']; in particular the comparison of scores never
    raises [TypeError], because the filter has removed every [None]. *)
Theorem best_model_errors (proj : Project) (lb : list Model) (e : Py.exn) :
  best_model proj lb = inl e ->
  e = Py.ValueError \/ e = Py.KeyError (metric proj) \/
  e = Py.KeyError "crossValidation".
Proof.
  unfold best_model. intros H.
  destruct (valid_models proj lb) as [e'|vm] eqn:Hvm; simpl in H.
  - injection H as ->. right.
    destruct (valid_models_error proj lb e Hvm) as (m & _ & Hm).
    now apply crossValidation_error with m.
  - left. pose proof (valid_models_slots proj lb vm Hvm) as Hs.
    rewrite (valid_models_filter proj lb Hs) in Hvm. injection Hvm as <-.
    destruct (List.filter (kept proj) lb) as [|x f] eqn:Hf.
    + simpl in H. congruence.
    + destruct (earliest_least_exists (crossValidation proj)
                  (List.filter (kept proj) lb))
        as (l1 & m & l2 & q & Hsplit & Hm & H1 & H2).
      * rewrite Hf. discriminate.
      * apply filter_kept_keys.
      * rewrite <- Hf, Hsplit in H.
        rewrite (py_min_earliest (crossValidation proj) l1 l2 m q Hm H1 H2) in H.
        discriminate.
Qed.

Lemma best_model_errors_witness :
  Py.KeyError "RMSE" = Py.ValueError \/
  Py.KeyError "RMSE" = Py.KeyError (metric rmse_project) \/
  Py.KeyError "RMSE" = Py.KeyError "crossValidation".
Proof.
  apply (best_model_errors rmse_project
           [mA; scored "MASE" "D" (Py.PyNum (1 # 4))] (Py.KeyError "RMSE")).
  vm_compute. reflexivity.
Defined.

(** X5.  The selection raises [ValueError] exactly when every entry has the
    slot and none passes the filter, that is, when every score is [None] or
    zero. *)
Theorem best_model_ValueError_exactly (proj : Project) (lb : list Model) :
  best_model proj lb = inl Py.ValueError <->
  Forall (has_slot proj) lb /\ Forall (fun m => kept proj m = false) lb.
Proof.
  split.
  - intros H. assert (Hs : Forall (has_slot proj) lb).
    { unfold best_model in H.
      destruct (valid_models proj lb) as [e|vm] eqn:Hvm; simpl in H.
      - injection H as ->.
        destruct (valid_models_error proj lb _ Hvm) as (m & _ & Hm).
        destruct (crossValidation_error proj m _ Hm); discriminate.
      - now apply (valid_models_slots proj lb vm). }
    split; [exact Hs|]. now apply best_model_ValueError_iff.
  - intros [Hs Hnone]. now apply best_model_ValueError_iff.
Qed.

(** X6.  The first entry without the slot decides the outcome: the selection
    raises the [KeyError] of that entry's lookup, whatever the scores of the
    other entries. *)
Theorem best_model_KeyError_first_missing
    (proj : Project) (l1 l2 : list Model) (m : Model) (e : Py.exn) :
  Forall (has_slot proj) l1 ->
  crossValidation proj m = inl e ->
  best_model proj (l1 ++ m :: l2) = inl e.
Proof.
  intros H1 Hm. unfold best_model.
  now rewrite (valid_models_first_missing proj l1 l2 m e H1 Hm).
Qed.

Lemma best_model_KeyError_first_missing_witness :
  best_model rmse_project
    ([mC] ++ scored "MASE" "D" (Py.PyNum (1 # 4)) :: [mA])
  = inl (Py.KeyError "RMSE").
Proof.
  apply (best_model_KeyError_first_missing rmse_project [mC] [mA]).
  - repeat constructor; eexists; vm_compute; reflexivity.
  - vm_compute. reflexivity.
Defined.

(** X7.  An entry that the filter drops (score [None] or zero) has no
    influence: with or without it, the selection has the same outcome. *)
Theorem best_model_skips_dropped
    (proj : Project) (l1 l2 : list Model) (m : Model) :
  Forall (has_slot proj) (l1 ++ m :: l2) ->
  kept proj m = false ->
  best_model proj (l1 ++ m :: l2) = best_model proj (l1 ++ l2).
Proof.
  intros Hs Hk. unfold best_model.
  assert (Hs' : Forall (has_slot proj) (l1 ++ l2)).
  { apply Forall_app in Hs. destruct Hs as [Ha Hb].
    apply Forall_app. split; [exact Ha|now inversion Hb]. }
  rewrite (valid_models_filter proj _ Hs), (valid_models_filter proj _ Hs').
  rewrite !List.filter_app. simpl. now rewrite Hk.
Qed.

Lemma best_model_skips_dropped_witness :
  best_model rmse_project ([mA] ++ mB :: [mC])
  = best_model rmse_project ([mA] ++ [mC]).
Proof.
  apply (best_model_skips_dropped rmse_project [mA] [mC] mB).
  - repeat constructor; eexists; vm_compute; reflexivity.
  - vm_compute. reflexivity.
Defined.

(** ** Cells 8 and 9: the displayed head and the selection *)

(** X8.  When the selected entry is among the first [n] entries of the
    leaderboard (the ten that cell 8 displays, for [n = 10]), selecting
    among those first [n] alone returns the same entry. *)
Theorem best_model_of_prefix
    (proj : Project) (lb : list Model) (n : nat) (m : Model) :
  Forall (has_slot proj) lb ->
  best_model proj lb = inr m ->
  In m (slice_to n lb) ->
  best_model proj (slice_to n lb) = inr m.
Proof.
  unfold slice_to. intros Hs Hb Hin.
  destruct (best_model_inv proj lb m Hs Hb)
    as (l1 & l2 & q & Hsplit & Hq & H1 & H2).
  assert (Hk : kept proj m = true).
  { assert (Hmf : In m (List.filter (kept proj) lb))
      by (rewrite Hsplit; apply List.in_or_app; right; now left).
    now apply List.filter_In in Hmf. }
  assert (Hsp : Forall (has_slot proj) (firstn n lb)) by now apply Forall_take.
  assert (Hmp : In m (List.filter (kept proj) (firstn n lb)))
    by (apply List.filter_In; now split).
  destruct (earliest_least_exists (crossValidation proj)
              (List.filter (kept proj) (firstn n lb)))
    as (a & m' & b & q' & Hsplit' & Hq' & Ha & Hb').
  { intros Hnil. now rewrite Hnil in Hmp. }
  { apply filter_kept_keys. }
  assert (Hbest' : best_model proj (firstn n lb) = inr m')
    by now apply (best_model_earliest_least proj _ a b m' q').
  rewrite Hbest'. f_equal.
  (* the score of [m'] is not above that of [m] *)
  assert (Hle' : (q' <= q)%Q).
  { rewrite Hsplit' in Hmp. apply List.in_app_or in Hmp.
    destruct Hmp as [Hma|[->|Hmb]].
    - apply (proj1 (List.Forall_forall _ _) Ha) in Hma.
      destruct Hma as (qm & Hqm & Hlt).
      rewrite (cv_is_fun proj m q qm Hq Hqm). now apply Qlt_le_weak.
    - rewrite (cv_is_fun proj m q q' Hq Hq'). apply Qle_refl.
    - apply (proj1 (List.Forall_forall _ _) Hb') in Hmb.
      destruct Hmb as (qm & Hqm & Hle).
      now rewrite (cv_is_fun proj m q qm Hq Hqm). }
  (* the filtered prefix is a prefix of the filtered leaderboard *)
  assert (Hcut : l1 ++ m :: l2
                 = a ++ m' :: (b ++ List.filter (kept proj) (skipn n lb))).
  { rewrite <- Hsplit. rewrite <- (firstn_skipn n lb) at 1.
    rewrite List.filter_app, Hsplit'. rewrite <- List.app_assoc. reflexivity. }
  destruct (cut_cases _ _ _ _ _ _ Hcut) as [[_ Heq]|[Hin1|Hina]].
  - now symmetry.
  - exfalso. apply (proj1 (List.Forall_forall _ _) H1) in Hin1.
    destruct Hin1 as (qm & Hqm & Hlt).
    rewrite <- (cv_is_fun proj m' q' qm Hq' Hqm) in Hlt.
    exact (Qlt_not_le _ _ Hlt Hle').
  - exfalso. apply (proj1 (List.Forall_forall _ _) Ha) in Hina.
    destruct Hina as (qm & Hqm & Hlt).
    rewrite <- (cv_is_fun proj m q qm Hq Hqm) in Hlt.
    assert (Hm'f : In m' (l1 ++ m :: l2)).
    { rewrite Hcut. apply List.in_or_app. right. now left. }
    apply List.in_app_or in Hm'f. destruct Hm'f as [Hx|[Hx|Hx]].
    + apply (proj1 (List.Forall_forall _ _) H1) in Hx.
      destruct Hx as (qx & Hqx & Hltx).
      rewrite <- (cv_is_fun proj m' q' qx Hq' Hqx) in Hltx.
      exact (Qlt_not_le _ _ Hltx Hle').
    + subst m'. rewrite (cv_is_fun proj m q q' Hq Hq') in Hlt.
      exact (Qlt_irrefl _ Hlt).
    + apply (proj1 (List.Forall_forall _ _) H2) in Hx.
      destruct Hx as (qx & Hqx & Hlex).
      rewrite <- (cv_is_fun proj m' q' qx Hq' Hqx) in Hlex.
      exact (Qlt_not_le _ _ Hlt Hlex).
Qed.

Lemma best_model_of_prefix_witness :
  best_model rmse_project (slice_to 2 [mA; mC; mB; mA]) = inr mC.
Proof.
  apply (best_model_of_prefix rmse_project [mA; mC; mB; mA] 2 mC).
  - repeat constructor; eexists; vm_compute; reflexivity.
  - vm_compute. reflexivity.
  - right. now left.
Defined.

(** ** Cell 16: the forecast point *)

Lemma last_train_date_upper (dates : list (option Z)) (m t : Z) :
  last_train_date dates = Some m -> In (Some t) dates -> (t <= m)%Z.
Proof.
  revert m. induction dates as [|[u|] dates IH]; intros m Hm Hin; simpl in *.
  - contradiction.
  - destruct (last_train_date dates) as [w|] eqn:Hw.
    + injection Hm as <-. destruct Hin as [[= ->]|Hin]; [lia|].
      specialize (IH w eq_refl Hin). lia.
    + injection Hm as <-. destruct Hin as [[= ->]|Hin]; [lia|].
      exfalso. clear IH. induction dates as [|[x|] dates IH']; simpl in *.
      * contradiction.
      * destruct (last_train_date dates); discriminate.
      * destruct Hin as [Hin|Hin]; [discriminate|]. now apply IH'.
  - destruct Hin as [Hin|Hin]; [discriminate|]. now apply IH.
Qed.

Lemma last_train_date_member (dates : list (option Z)) (m : Z) :
  last_train_date dates = Some m -> In (Some m) dates.
Proof.
  revert m. induction dates as [|[u|] dates IH]; intros m Hm; simpl in *.
  - discriminate.
  - destruct (last_train_date dates) as [w|] eqn:Hw.
    + injection Hm as <-. destruct (Z.max_spec u w) as [[_ ->]|[_ ->]].
      * right. now apply IH.
      * now left.
    + injection Hm as <-. now left.
  - right. now apply IH.
Qed.

(** X9.  As soon as the date column holds one instant, the forecast point
    is an instant of the column and no instant of the column is later. *)
Theorem last_train_date_latest (dates : list (option Z)) (t : Z) :
  In (Some t) dates ->
  exists m, last_train_date dates = Some m /\ In (Some m) dates /\
            forall u, In (Some u) dates -> (u <= m)%Z.
Proof.
  intros Hin. destruct (last_train_date dates) as [m|] eqn:Hm.
  - exists m. split; [reflexivity|]. split.
    + now apply last_train_date_member.
    + intros u Hu. now apply (last_train_date_upper dates m u).
  - exfalso. induction dates as [|[x|] dates IH]; simpl in *.
    + contradiction.
    + destruct (last_train_date dates); discriminate.
    + destruct Hin as [Hin|Hin]; [discriminate|]. now apply IH.
Qed.

Lemma last_train_date_latest_witness :
  exists m, last_train_date [Some 3; None; Some 16235; Some 7]%Z = Some m /\
            In (Some m) [Some 3; None; Some 16235; Some 7]%Z /\
            forall u, In (Some u) [Some 3; None; Some 16235; Some 7]%Z ->
                      (u <= m)%Z.
Proof.
  apply (last_train_date_latest [Some 3; None; Some 16235; Some 7]%Z 7%Z).
  right. right. right. now left.
Defined.

(** X10.  The forecast point is missing ([NaT]) exactly when the column
    holds no instant at all (it is empty or every cell is missing). *)
Theorem last_train_date_missing (dates : list (option Z)) :
  last_train_date dates = None <-> Forall (fun d => d = None) dates.
Proof.
  induction dates as [|[x|] dates IH]; simpl.
  - split; [constructor|reflexivity].
  - split.
    + destruct (last_train_date dates); discriminate.
    + intros H. inversion H. discriminate.
  - rewrite IH. split.
    + intros H. now constructor.
    + intros H. now inversion H.
Qed.


(** ** Cell 4: the name of the project *)

Lemma upto_In (k : nat) (lo n : Z) :
  (lo <= n < lo + Z.of_nat k)%Z -> In n (upto k lo).
Proof.
  revert lo. induction k as [|k IH]; intros lo H; simpl; [lia|].
  destruct (Z.eq_dec lo n) as [->|Hne]; [now left|].
  right. apply IH. lia.
Qed.

(** A boolean test that holds on a whole range holds at each of its
    numbers. *)
Lemma forallb_range (f : Z -> bool) (k : nat) (lo : Z) :
  forallb f (upto k lo) = true ->
  forall n, (lo <= n < lo + Z.of_nat k)%Z -> f n = true.
Proof.
  intros H n Hn. apply (proj1 (List.forallb_forall f (upto k lo)) H).
  now apply upto_In.
Qed.

(** Below 100 the padded decimal is the tens digit and the units digit. *)
Lemma zero_padded_2 (n : Z) :
  (0 <= n < 100)%Z ->
  zero_padded 2 n
  = String (digit (n / 10)) (String (digit (n mod 10)) EmptyString).
Proof.
  intros Hn. apply String.eqb_eq.
  apply (forallb_range
           (fun n => String.eqb (zero_padded 2 n)
              (String (digit (n / 10)) (String (digit (n mod 10)) EmptyString)))
           100 0); [vm_compute; reflexivity|lia].
Qed.

(** Below 10000 the padded decimal is the padded hundreds followed by the
    padded rest. *)
Lemma zero_padded_4 (n : Z) :
  (0 <= n < 10000)%Z ->
  zero_padded 4 n
  = (zero_padded 2 (n / 100) ++ zero_padded 2 (n mod 100))%string.
Proof.
  intros Hn. apply String.eqb_eq.
  apply (forallb_range
           (fun n => String.eqb (zero_padded 4 n)
              (zero_padded 2 (n / 100) ++ zero_padded 2 (n mod 100))%string)
           (Z.to_nat 10000) 0); [vm_compute; reflexivity|lia].
Qed.

Lemma N_of_digit (d : Z) :
  (0 <= d <= 9)%Z -> N_of_ascii (digit d) = (48 + Z.to_N d)%N.
Proof. intros Hd. unfold digit. apply N_ascii_embedding. lia. Qed.

Lemma digit_inj (a b : Z) :
  (0 <= a <= 9)%Z -> (0 <= b <= 9)%Z -> digit a = digit b -> a = b.
Proof.
  intros Ha Hb H. apply (f_equal N_of_ascii) in H.
  rewrite !N_of_digit in H by assumption. lia.
Qed.

Lemma digit_compare (a b : Z) :
  (0 <= a <= 9)%Z -> (0 <= b <= 9)%Z ->
  Ascii.compare (digit a) (digit b) = (a ?= b)%Z.
Proof.
  intros Ha Hb. unfold Ascii.compare. rewrite !N_of_digit by assumption.
  rewrite <- N2Z.inj_compare. rewrite !N2Z.inj_add, !Z2N.id by lia.
  apply Z.add_compare_mono_l.
Qed.

Lemma lex_Eq_r (c : comparison) : lex c Eq = c.
Proof. now destruct c. Qed.

(** Comparing quotient and then remainder is comparing the numbers. *)
Lemma lex_div_mod (b x y : Z) (r : comparison) :
  (0 < b)%Z ->
  lex (x / b ?= y / b)%Z (lex (x mod b ?= y mod b)%Z r)
  = lex (x ?= y)%Z r.
Proof.
  intros Hb.
  pose proof (Z.div_mod x b ltac:(lia)) as Hx.
  pose proof (Z.div_mod y b ltac:(lia)) as Hy.
  pose proof (Z.mod_pos_bound x b Hb) as Bx.
  pose proof (Z.mod_pos_bound y b Hb) as By.
  destruct (Z.compare_spec (x / b) (y / b)) as [Hq|Hq|Hq]; simpl.
  - destruct (Z.compare_spec (x mod b) (y mod b)) as [Hr|Hr|Hr]; simpl.
    + replace (x ?= y)%Z with Eq; [reflexivity|].
      symmetry. apply Z.compare_eq_iff. congruence.
    + replace (x ?= y)%Z with Lt; [reflexivity|].
      symmetry. apply Z.compare_lt_iff. rewrite Hx, Hy, Hq. lia.
    + replace (x ?= y)%Z with Gt; [reflexivity|].
      symmetry. apply Z.compare_gt_iff. rewrite Hx, Hy, Hq. lia.
  - replace (x ?= y)%Z with Lt; [reflexivity|].
    symmetry. apply Z.compare_lt_iff. nia.
  - replace (x ?= y)%Z with Gt; [reflexivity|].
    symmetry. apply Z.compare_gt_iff. nia.
Qed.

Lemma compare_cons (c c' : ascii) (s s' : string) :
  String.compare (String c s) (String c' s')
  = lex (Ascii.compare c c') (String.compare s s').
Proof. simpl. now destruct (Ascii.compare c c'). Qed.

Lemma compare_same_head (c : ascii) (s s' : string) :
  String.compare (String c s) (String c s') = String.compare s s'.
Proof.
  rewrite compare_cons. unfold Ascii.compare. now rewrite N.compare_refl.
Qed.

Lemma compare_same_prefix (p s s' : string) :
  String.compare (p ++ s) (p ++ s') = String.compare s s'.
Proof.
  induction p as [|c p IH]; [reflexivity|].
  change (String.compare (String c (p ++ s)) (String c (p ++ s'))
          = String.compare s s').
  now rewrite compare_same_head.
Qed.

Lemma two_digits (n : Z) :
  (0 <= n < 100)%Z -> (0 <= n / 10 <= 9)%Z /\ (0 <= n mod 10 <= 9)%Z.
Proof. intros H. Z.to_euclidean_division_equations. lia. Qed.

Lemma two_pairs (n : Z) :
  (0 <= n < 10000)%Z -> (0 <= n / 100 < 100)%Z /\ (0 <= n mod 100 < 100)%Z.
Proof. intros H. Z.to_euclidean_division_equations. lia. Qed.

(** The sixteen characters of the stamp. *)
Lemma now_digits (clock : datetime) :
  clock_ok clock ->
  now clock =
  let y := year (date_part clock) in
  let mo := month (date_part clock) in
  let d := day (date_part clock) in
  String (digit (y / 100 / 10)) (String (digit ((y / 100) mod 10))
  (String (digit (y mod 100 / 10)) (String (digit ((y mod 100) mod 10))
  (String "-"
  (String (digit (mo / 10)) (String (digit (mo mod 10))
  (String "-"
  (String (digit (d / 10)) (String (digit (d mod 10))
  (String "T"
  (String (digit (hour clock / 10)) (String (digit (hour clock mod 10))
  (String ":"
  (String (digit (minute clock / 10)) (String (digit (minute clock mod 10))
   EmptyString))))))))))))))).
Proof.
  intros (Hy & Hmo & Hd & Hh & Hmi). unfold now.
  destruct (two_pairs (year (date_part clock)) ltac:(lia)) as [Hhi Hlo].
  rewrite zero_padded_4 by lia.
  rewrite !zero_padded_2 by lia.
  reflexivity.
Qed.

Lemma compare_refl (s : string) : String.compare s s = Eq.
Proof. induction s as [|c s IH]; [reflexivity|]. now rewrite compare_same_head. Qed.

Lemma lex_Eq_inv (c d : comparison) : lex c d = Eq -> c = Eq /\ d = Eq.
Proof. destruct c; simpl; intros H; try discriminate. now split. Qed.

Lemma project_name_order_aux (a b : datetime) :
  clock_ok a -> clock_ok b ->
  String.compare (project_name a) (project_name b) = minute_compare a b.
Proof.
  intros Ha Hb. unfold project_name. rewrite compare_same_prefix.
  rewrite (now_digits a Ha), (now_digits b Hb). cbv zeta.
  destruct Ha as (Hya & Hmoa & Hda & Hha & Hmia).
  destruct Hb as (Hyb & Hmob & Hdb & Hhb & Hmib).
  repeat first [rewrite compare_same_head | rewrite compare_cons].
  change (String.compare EmptyString EmptyString) with Eq.
  rewrite !digit_compare by (Z.to_euclidean_division_equations; lia).
  rewrite !(lex_div_mod 10) by lia.
  rewrite (lex_div_mod 100) by lia.
  unfold minute_compare. now rewrite lex_Eq_r.
Qed.

(** X11.  For clock readings with a four-digit year, the alphabetical order
    of two project names is the chronological order of the readings, taken
    to the minute. *)
Theorem project_name_order (a b : datetime) :
  clock_ok a -> clock_ok b ->
  String.compare (project_name a) (project_name b) = minute_compare a b.
Proof. exact (project_name_order_aux a b). Qed.

Lemma project_name_order_witness :
  String.compare (project_name clock_a) (project_name clock_c)
  = minute_compare clock_a clock_c.
Proof.
  apply (project_name_order clock_a clock_c);
    unfold clock_ok; simpl; lia.
Defined.

(** X12.  For clock readings with a four-digit year, two runs get the same
    project name exactly when they start in the same minute of the same day:
    seconds and microseconds do not show in the name. *)
Theorem project_name_same_minute (a b : datetime) :
  clock_ok a -> clock_ok b ->
  project_name a = project_name b <->
  date_part a = date_part b /\ hour a = hour b /\ minute a = minute b.
Proof.
  intros Ha Hb. split.
  - intros H. pose proof (project_name_order_aux a b Ha Hb) as Hcmp.
    rewrite H, compare_refl in Hcmp. symmetry in Hcmp.
    unfold minute_compare in Hcmp.
    apply lex_Eq_inv in Hcmp. destruct Hcmp as [Hy Hcmp].
    apply lex_Eq_inv in Hcmp. destruct Hcmp as [Hmo Hcmp].
    apply lex_Eq_inv in Hcmp. destruct Hcmp as [Hd Hcmp].
    apply lex_Eq_inv in Hcmp. destruct Hcmp as [Hh Hmi].
    apply Z.compare_eq in Hy, Hmo, Hd, Hh, Hmi.
    repeat split; try assumption.
    destruct (date_part a), (date_part b); simpl in *. congruence.
  - intros (Hd & Hh & Hmi). unfold project_name, now.
    now rewrite Hd, Hh, Hmi.
Qed.

Lemma project_name_same_minute_witness :
  project_name clock_a = project_name clock_b <->
  date_part clock_a = date_part clock_b /\ hour clock_a = hour clock_b /\
  minute clock_a = minute clock_b.
Proof.
  apply (project_name_same_minute clock_a clock_b);
    unfold clock_ok; simpl; lia.
Defined.

(** X13.  For clock readings with a four-digit year the project name has
    42 characters: the 26 of the fixed prefix and the 16 of the stamp. *)
Theorem project_name_length (clock : datetime) :
  clock_ok clock -> String.length (project_name clock) = 42%nat.
Proof.
  intros H. unfold project_name. rewrite (now_digits clock H). reflexivity.
Qed.

Lemma project_name_length_witness :
  String.length (project_name clock_a) = 42%nat.
Proof.
  apply (project_name_length clock_a). unfold clock_ok; simpl; lia.
Defined.
